(** * simplify.py: decimation of the EGM and ETOPO grids, WGS84 projection
      and paired export

    A shallow embedding of [simplify.py].  Conventions of the model:

    - a Python [int] is a [Z];
    - a Python [float] read from a grid file, and every quantity computed
      from it by [+ - * /], [int], [math.floor], [math.fabs] and [round], is
      an exact rational ([Q]): rounding of binary64 arithmetic is left out;
    - a Python [float] that goes through [math.sin], [math.cos], [math.sqrt]
      or [math.pi] is a real number ([R]);
    - a text file opened for reading is the list of its lines together with
      a cursor; a line is the list of the numbers [line.strip().split()]
      holds, already converted by [float];
    - a text file opened for writing is the list of the strings written to
      it, oldest first;
    - an exception that leaves the modelled function is a [Raise]. *)

From Stdlib Require Import ZArith QArith Qround Qabs Qfield List Lia Bool Arith.
From Stdlib Require Import Reals Lra String Ascii DecimalString.
Import ListNotations.

(** ** Exceptions *)

Inductive PyExc : Set :=
| ZeroDivisionError
| TypeError
| ValueError
| IndexError.

Inductive result (A : Type) : Type :=
| Ok (a : A)
| Raise (e : PyExc).

Arguments Ok {A} a.
Arguments Raise {A} e.

(** ** Numbers *)

Module Py.

Local Open Scope Q_scope.

(** [x / y] on floats (or on ints, true division). *)
Definition truediv (x y : Q) : result Q :=
  if Qeq_bool y 0 then Raise ZeroDivisionError else Ok (x / y).

(** [int(x)]: truncation towards zero. *)
Definition int (x : Q) : Z :=
  if (Qnum x <? 0)%Z then Qceiling x else Qfloor x.

(** [math.floor(x)]. *)
Definition floor (x : Q) : Z := Qfloor x.

(** [math.fabs(x)]. *)
Definition fabs (x : Q) : Q := Qabs x.

(** Nearest integer, ties to the even one. *)
Definition round_half_even (x : Q) : Z :=
  let n := Qfloor x in
  match Qcompare (x - inject_Z n) (1 # 2) with
  | Lt => n
  | Gt => (n + 1)%Z
  | Eq => if Z.even n then n else (n + 1)%Z
  end.

(** [round(x, ndigits)] for a float [x] and [ndigits >= 0]. *)
Definition round (x : Q) (ndigits : nat) : Q :=
  let scale := inject_Z (10 ^ Z.of_nat ndigits) in
  inject_Z (round_half_even (x * scale)) / scale.

(** *** Sequences *)

(** An index of a slice bound, brought into [0 .. len] as list slicing
    with a positive step does. *)
Definition adjust_index (len i : Z) : Z :=
  if (i <? 0)%Z then Z.max 0 (i + len) else Z.min i len.

(** [l[start:stop]]; an omitted bound is [None]. *)
Definition slice {A : Type} (l : list A) (start stop : option Z) : list A :=
  let len := Z.of_nat (List.length l) in
  let a := match start with Some i => adjust_index len i | None => 0%Z end in
  let b := match stop with Some i => adjust_index len i | None => len end in
  firstn (Z.to_nat (b - a)) (skipn (Z.to_nat a) l).

(** [l[::step]] for [step >= 1]: the items at [0, step, 2*step, ...]. *)
Definition slice_step {A : Type} (l : list A) (step : nat) : list A :=
  let len := List.length l in
  let slicelength := match len with O => O | S m => S (m / step) end in
  flat_map (fun i => match nth_error l (i * step) with
                     | Some x => [x]
                     | None => []
                     end) (seq 0 slicelength).

(** The items an [islice] with start 0 yields from what it traverses: [i]
    counts the items seen and [next] is the index of the next one to yield. *)
Fixpoint islice_yield {A : Type} (l : list A) (i next step : nat) : list A :=
  match l with
  | [] => []
  | x :: l' =>
      if Nat.eqb i next
      then x :: islice_yield l' (S i) (next + step) step
      else islice_yield l' (S i) next step
  end.

End Py.

(** ** Input files *)

(** A line of a grid file, as [list(map(float, line.strip().split()))]. *)
Definition Row : Type := list Q.

Record File : Type := mkFile { lines : list Row; cursor : nat }.

(** [open(name, 'rt')]. *)
Definition open (ls : list Row) : File := mkFile ls 0.

(** The lines from the cursor on. *)
Definition remaining (f : File) : list Row := skipn (cursor f) (lines f).

(** Computations on one input file that may raise. *)
Definition M (A : Type) : Type := File -> result (A * File).

Definition ret {A : Type} (a : A) : M A := fun f => Ok (a, f).

Definition bind {A B : Type} (m : M A) (k : A -> M B) : M B :=
  fun f => match m f with
           | Ok (a, f') => k a f'
           | Raise e => Raise e
           end.

Definition raise {A : Type} (e : PyExc) : M A := fun _ => Raise e.

Definition lift {A : Type} (r : result A) : M A :=
  fun f => match r with Ok a => Ok (a, f) | Raise e => Raise e end.

Declare Scope py_scope.
Delimit Scope py_scope with py.
Notation "x <- m ;; k" := (bind m (fun x => k))
  (at level 61, m at next level, right associativity) : py_scope.

Local Open Scope py_scope.

(** One step of [for line in file]. *)
Definition next_line : M (option Row) :=
  fun f => match nth_error (lines f) (cursor f) with
           | Some l => Ok (Some l, mkFile (lines f) (S (cursor f)))
           | None => Ok (None, f)
           end.

Definition SEEK_SET : nat := 0.

(** [file.seek(offset)], used with offset 0 only. *)
Definition seek (offset : nat) : M unit :=
  fun f => Ok (tt, mkFile (lines f) offset).

(** [islice(file, 0, stop, step)] run to exhaustion: the lines yielded.  The
    iterator is advanced to [stop], or to the end of the file when it is
    shorter or when [stop] is [None]. *)
Definition islice (stop : option Z) (step : Z) : M (list Row) :=
  fun f =>
    if (step <? 1)%Z then Raise ValueError
    else if match stop with Some s => (s <? 0)%Z | None => false end
    then Raise ValueError
    else
      let rest := remaining f in
      let window := match stop with
                    | Some s => firstn (Z.to_nat s) rest
                    | None => rest
                    end in
      Ok (Py.islice_yield window 0 0 (Z.to_nat step),
          mkFile (lines f) (cursor f + List.length window)).

(** ** Step detection *)

Section Detection.

Local Open Scope Q_scope.

Definition get_paso_malla_etopo : M (option Q) :=
  (line <- next_line ;;
   match line with
   | None => ret None
   | Some ls =>
       let num_elements := Z.of_nat (List.length ls) in
       _ <- seek SEEK_SET ;;
       d <- lift (Py.truediv (inject_Z (num_elements - 1)) 360) ;;
       paso <- lift (Py.truediv 60 d) ;;
       ret (Some paso)
   end)%py.

(** The loop of [get_paso_malla_egm] over the lines not yet read; [fuel]
    bounds the lines left. *)
Fixpoint egm_scan (fuel : nat) (lon_i : option Q) : M (option Q) :=
  match fuel with
  | O => ret None
  | S fuel' =>
      (line <- next_line ;;
       match line with
       | None => ret None
       | Some [lat_; lon_f; ond] =>
           match lon_i with
           | None => egm_scan fuel' (Some lon_f)
           | Some lon0 =>
               let dif := Py.fabs (lon_f - lon0) in
               _ <- seek SEEK_SET ;;
               ret (Some (Py.round (dif * 60) 2))
           end
       | Some _ => raise ValueError
       end)%py
  end.

Definition get_paso_malla_egm : M (option Q) :=
  fun f => egm_scan (S (List.length (remaining f))) None f.

End Detection.

(** ** Decimation *)

Section Decimation.

(** The output step of the run, in minutes (a global of the script). *)
Variable paso_malla_salida : Z.

Local Open Scope Q_scope.

(** [parse_line] of [simplifyETOPO].  It runs on the lines [islice] yields,
    hence with [salto >= 1] only: [islice] raises on a smaller step. *)
Definition parse_line_etopo (middle salto : Z) (line_values : Row) : list Q :=
  let merged := Py.slice line_values (Some middle) (Some (-1)%Z)
                ++ Py.slice line_values None (Some middle) in
  map (fun x => x * 1000) (Py.slice_step merged (Z.to_nat salto)).

Definition simplifyETOPO : M (list Q) :=
  (paso <- get_paso_malla_etopo ;;
   match paso with
   | None => raise TypeError
   | Some paso_malla_fichero =>
       q <- lift (Py.truediv (inject_Z paso_malla_salida) paso_malla_fichero) ;;
       let salto := Py.int q in
       r <- lift (Py.truediv 60 paso_malla_fichero) ;;
       let middle := Py.floor (360 * r / 2) in
       kept <- islice None salto ;;
       ret (flat_map (parse_line_etopo middle salto) kept)
   end)%py.

(** [parse_line] of [simplifyEGM08]. *)
Definition parse_line_egm (l : Row) : Row := l.

(** One turn of the loop of [simplifyEGM08]. *)
Definition egm_band (salto salto_lat rest_of_lines : Z) (acc : list Row)
  : M (list Row) :=
  (parsed_line <- islice (Some (salto_lat - 1)%Z) salto ;;
   let acc' := (acc ++ map parse_line_egm parsed_line)%list in
   _ <- islice (Some rest_of_lines) 1 ;;
   ret acc')%py.

(** [n] turns of the loop, from the list [acc] built so far. *)
Fixpoint egm_loop (n : nat) (salto salto_lat rest_of_lines : Z)
  (acc : list Row) : M (list Row) :=
  match n with
  | O => ret acc
  | S n' =>
      (acc' <- egm_band salto salto_lat rest_of_lines acc ;;
       egm_loop n' salto salto_lat rest_of_lines acc')%py
  end.

(** The values [simplifyEGM08] computes before its loop: [salto],
    [salto_lat], [rest_of_lines] and [final]. *)
Definition egm_params (paso_malla_fichero : Q) : result (Z * Z * Z * Z) :=
  match Py.truediv (inject_Z paso_malla_salida) paso_malla_fichero with
  | Raise e => Raise e
  | Ok q =>
      let salto := Py.int q in
      match Py.truediv (inject_Z (360 * 60)) paso_malla_fichero with
      | Raise e => Raise e
      | Ok q' =>
          let salto_lat := Py.int q' in
          let rest_of_lines := (salto * salto_lat - salto_lat + 1)%Z in
          match Py.truediv 60 (inject_Z paso_malla_salida) with
          | Raise e => Raise e
          | Ok r =>
              let final := (Py.floor (180 * r) + 1)%Z in
              Ok (salto, salto_lat, rest_of_lines, final)
          end
      end
  end.

Definition simplifyEGM08 : M (list Row) :=
  (paso <- get_paso_malla_egm ;;
   match paso with
   | None => raise TypeError
   | Some paso_malla_fichero =>
       p <- lift (egm_params paso_malla_fichero) ;;
       let '(salto, salto_lat, rest_of_lines, final) := p in
       egm_loop (Z.to_nat final) salto salto_lat rest_of_lines []
   end)%py.

End Decimation.

(** ** Projection to geocentric coordinates *)

Module Projector.

Local Open Scope R_scope.

Definition rbind {A B : Type} (r : result A) (k : A -> result B) : result B :=
  match r with
  | Ok a => k a
  | Raise e => Raise e
  end.

Notation "x <~ r ;; k" := (rbind r (fun x => k))
  (at level 61, r at next level, right associativity).

(** [x / y] on floats. *)
Definition truediv (x y : R) : result R :=
  if Req_dec_T y 0 then Raise ZeroDivisionError else Ok (x / y).

(** [math.sqrt(x)]: a negative argument is a math domain error. *)
Definition math_sqrt (x : R) : result R :=
  if Rlt_dec x 0 then Raise ValueError else Ok (sqrt x).

Definition geo2car (lon lat h factor_exageracion : R) : result (R * R * R) :=
  let h := h * factor_exageracion in
  lon_ <~ truediv (lon * PI) 180 ;;
  lat_ <~ truediv (lat * PI) 180 ;;
  let a := 6378137 in
  f <~ truediv 1 298.257223563 ;;
  let b := a - a * f in
  el <~ math_sqrt (a ^ 2 - b ^ 2) ;;
  pe <~ truediv el a ;;
  let resta := pe ^ 2 * sin lat_ ^ 2 in
  denom <~ math_sqrt (1 - resta) ;;
  v <~ truediv a denom ;;
  let x := (v + h) * cos lat_ * cos lon_ in
  let y := (v + h) * cos lat_ * sin lon_ in
  q <~ truediv (b ^ 2) (a ^ 2) ;;
  let z := (q * v + h) * sin lat_ in
  Ok (x, y, z).

(** Nearest integer of a real, ties to the even one. *)
Definition round_half_even (x : R) : Z :=
  let n := Int_part x in
  let d := x - IZR n in
  if Rlt_dec d (1 / 2) then n
  else if Rlt_dec (1 / 2) d then (n + 1)%Z
  else if Z.even n then n else (n + 1)%Z.






End Projector.

(** ** Paired export *)

Module Exporter.

Import Projector.








End Exporter.

(** ** The geodetic formulas of the specification *)

(** The geocentric point of a geodetic position on the WGS84 ellipsoid, as
    the specification writes it. *)
Module WGS84.

Local Open Scope R_scope.

Definition a : R := 6378137.
Definition f : R := 1 / 298.257223563.
Definition b : R := a * (1 - f).
Definition e : R := sqrt (a ^ 2 - b ^ 2) / a.

Definition radians (degrees : R) : R := degrees * PI / 180.

(** The radius of the prime vertical at a latitude in radians. *)
Definition v (lat : R) : R := a / sqrt (1 - e ^ 2 * sin lat ^ 2).

Definition point (longitudeDeg latitudeDeg heightMeters exaggeration : R)
  : R * R * R :=
  let lon := radians longitudeDeg in
  let lat := radians latitudeDeg in
  let h := heightMeters * exaggeration in
  ((v lat + h) * cos lat * cos lon,
   (v lat + h) * cos lat * sin lon,
   (b ^ 2 / a ^ 2 * v lat + h) * sin lat).

(** The outward direction the height is measured along. *)
Definition normal (longitudeDeg latitudeDeg : R) : R * R * R :=
  let lon := radians longitudeDeg in
  let lat := radians latitudeDeg in
  (cos lat * cos lon, cos lat * sin lon, sin lat).

End WGS84.

(** ** The shape of a vertex record *)




(** ** What the export pass is to write *)

Module Expected.







End Expected.

(** ** Decimation as the specification words it *)

Module Spec.

Local Open Scope Q_scope.

(** The items of a list whose index is a multiple of [k], when the indices
    are counted from [i]. *)
Definition selected_from {A : Type} (i k : nat) (l : list A) : list A :=
  map snd (filter (fun p => Nat.eqb (fst p mod k) 0)
             (combine (seq i (List.length l)) l)).

(** Every [k]-th item of a list, starting at index 0. *)
Definition every_nth {A : Type} (k : nat) (l : list A) : list A :=
  selected_from 0 k l.

(** The native step, in minutes, of an elevation grid whose rows have [n]
    fields. *)
Definition elevation_step (n : nat) : Q :=
  60 / (inject_Z (Z.of_nat n - 1) / 360).

(** The index that separates the two halves of an elevation row. *)
Definition mid (nativeStep : Q) : Z := Qfloor (360 * (60 / nativeStep) / 2).

(** A row [v[0..n-1]] reordered: [v[mid..n-2]] followed by [v[0..mid-1]]. *)
Definition reorder (mid : nat) (v : list Q) : list Q :=
  firstn (List.length v - 1 - mid) (skipn mid v) ++ firstn mid v.

(** Elevation-grid decimation: every [rowStride]-th row, reordered, in
    meters, every [rowStride]-th value of it, all rows flattened. *)
Definition decimate_elevation (rowStride mid : nat) (rows : list Row)
  : list Q :=
  flat_map (fun v =>
              every_nth rowStride (map (fun x => x * 1000) (reorder mid v)))
           (every_nth rowStride rows).

End Spec.

(** ** Undulation-grid decimation as the specification words it *)

Module BandSpec.

Local Open Scope Q_scope.

(** The native step of an undulation grid whose first two rows have the
    longitudes [lon1] and [lon2]. *)
Definition undulation_step (lon1 lon2 : Q) : Q :=
  Py.round (Qabs (lon2 - lon1) * 60) 2.

(** The rows a retained band contributes: every [colStride]-th row among the
    first [bandHeight - 1] rows from the first row of the band. *)
Definition band_rows (colStride bandHeight : Z) (rows : list Row)
  (first_row : nat) : list Row :=
  Spec.every_nth (Z.to_nat colStride)
    (firstn (Z.to_nat (bandHeight - 1)) (skipn first_row rows)).



End BandSpec.

(** ** Two small global grids *)

Module Grids.

Local Open Scope Q_scope.

(** An elevation grid of step 90 degrees (5400 minutes): the latitudes 90, 0
    and -90, and on each the longitudes -180, -90, 0, 90 and 180.  The value
    at row [r] and column [c] is [10 * r + c], in kilometers. *)
Definition etopo5400 : list Row :=
  [[0; 1; 2; 3; 4]; [10; 11; 12; 13; 14]; [20; 21; 22; 23; 24]].

(** The band of an undulation grid of step 90 degrees at a latitude: the
    longitudes 0, 90, 180 and 270. *)
Definition band5400 (lat : Q) : list Row :=
  [[lat; 0; 1]; [lat; 90; 2]; [lat; 180; 3]; [lat; 270; 4]].

(** The undulation grid of step 90 degrees: the latitudes 90, 0 and -90. *)
Definition egm5400 : list Row :=
  (band5400 90 ++ band5400 0 ++ band5400 (-90))%list.

End Grids.

(** ** Shapes of grids *)

Module Shape.

Local Open Scope Q_scope.








End Shape.

(** ** The run of the script *)

Module Script.

Import Exporter.



End Script.

(** * Properties *)

(** ** Step detection *)

Section DetectionFacts.

Local Open Scope Q_scope.

Lemma truediv_ok (x y : Q) : ~ y == 0 -> Py.truediv x y = Ok (x / y).
Proof.
  intros Hy. unfold Py.truediv.
  destruct (Qeq_bool y 0) eqn:E; [|reflexivity].
  apply Qeq_bool_iff in E. contradiction.
Qed.

(** The number of fields per degree of an ETOPO row, [(n - 1) / 360], is
    not zero when the row has two fields or more. *)
Lemma fields_per_degree_nonzero (n : nat) :
  (2 <= n)%nat -> ~ inject_Z (Z.of_nat n - 1) / 360 == 0.
Proof.
  intros Hn H.
  unfold Qdiv, Qeq, Qmult, Qinv in H. simpl in H. lia.
Qed.

Lemma etopo_step_detected (f : File) (ls : Row) (n : nat) :
  nth_error (lines f) (cursor f) = Some ls ->
  List.length ls = n ->
  (2 <= n)%nat ->
  get_paso_malla_etopo f
  = Ok (Some (60 / (inject_Z (Z.of_nat n - 1) / 360)), mkFile (lines f) 0).
Proof.
  intros Hline Hlen Hn.
  unfold get_paso_malla_etopo, bind, next_line.
  rewrite Hline. cbn [seek lines lift ret].
  rewrite Hlen.
  assert (H360 : ~ 360 == 0) by (intro H; discriminate H).
  rewrite (truediv_ok _ _ H360). cbn [lift].
  rewrite (truediv_ok _ _ (fields_per_degree_nonzero _ Hn)).
  reflexivity.
Qed.

Lemma egm_step_detected (f : File) (lat1 lon1 ond1 lat2 lon2 ond2 : Q) :
  nth_error (lines f) (cursor f) = Some [lat1; lon1; ond1] ->
  nth_error (lines f) (S (cursor f)) = Some [lat2; lon2; ond2] ->
  get_paso_malla_egm f
  = Ok (Some (Py.round (Qabs (lon2 - lon1) * 60) 2), mkFile (lines f) 0).
Proof.
  intros H1 H2.
  unfold get_paso_malla_egm.
  assert (Hrem : exists m, List.length (remaining f) = S (S m)).
  { unfold remaining.
    assert (Hlt : (S (cursor f) < List.length (lines f))%nat)
      by (apply nth_error_Some; congruence).
    rewrite length_skipn.
    exists (List.length (lines f) - cursor f - 2)%nat. lia. }
  destruct Hrem as [m Hm]. rewrite Hm.
  cbn [egm_scan]. unfold bind at 1, next_line at 1.
  rewrite H1. cbn [egm_scan].
  unfold bind at 1, next_line at 1. cbn [lines cursor].
  rewrite H2. reflexivity.
Qed.


End DetectionFacts.

(** ** Projection *)

Section ProjectionFacts.

Local Open Scope R_scope.

Import Projector.

Lemma truediv_R_ok (x y : R) : y <> 0 -> truediv x y = Ok (x / y).
Proof.
  intros Hy. unfold truediv. destruct (Req_dec_T y 0); [contradiction|reflexivity].
Qed.

Lemma math_sqrt_ok (x : R) : 0 <= x -> math_sqrt x = Ok (sqrt x).
Proof.
  intros Hx. unfold math_sqrt. destruct (Rlt_dec x 0); [lra|reflexivity].
Qed.

Lemma flattening_bounds : 0 < WGS84.f < 1.
Proof. unfold WGS84.f. lra. Qed.

Lemma semi_axes : 0 < WGS84.b < WGS84.a.
Proof.
  pose proof flattening_bounds as Hf.
  unfold WGS84.b, WGS84.a in *. nra.
Qed.

Lemma linear_eccentricity_arg : 0 < WGS84.a ^ 2 - WGS84.b ^ 2.
Proof. pose proof semi_axes. nra. Qed.

(** The square of the first eccentricity is [1 - (b/a)^2], within [0, 1). *)
Lemma eccentricity_sq : WGS84.e ^ 2 = 1 - (WGS84.b / WGS84.a) ^ 2.
Proof.
  pose proof semi_axes as Hab. pose proof linear_eccentricity_arg as Hel.
  unfold WGS84.e.
  replace ((sqrt (WGS84.a ^ 2 - WGS84.b ^ 2) / WGS84.a) ^ 2)
    with (sqrt (WGS84.a ^ 2 - WGS84.b ^ 2) ^ 2 / WGS84.a ^ 2)
    by (field; lra).
  rewrite pow2_sqrt by lra. field. lra.
Qed.

Lemma eccentricity_sq_bounds : 0 <= WGS84.e ^ 2 < 1.
Proof.
  rewrite eccentricity_sq. pose proof semi_axes as Hab.
  assert (H0 : 0 < WGS84.b / WGS84.a) by (apply Rdiv_lt_0_compat; lra).
  assert (H1 : WGS84.b / WGS84.a < 1)
    by (apply (Rmult_lt_reg_r WGS84.a); [lra|]; unfold Rdiv;
        rewrite Rmult_assoc, Rinv_l by lra; lra).
  nra.
Qed.

Lemma sin_sq_bounds (x : R) : 0 <= sin x ^ 2 <= 1.
Proof. pose proof (SIN_bound x). nra. Qed.

(** What is under the square root of the prime-vertical radius. *)
Lemma radicand_positive (lat : R) : 0 < 1 - WGS84.e ^ 2 * sin lat ^ 2.
Proof.
  pose proof eccentricity_sq_bounds. pose proof (sin_sq_bounds lat). nra.
Qed.

(** [geo2car] raises nothing and returns the point of the formulas. *)
Lemma geo2car_point (lon lat h k : R) :
  geo2car lon lat h k = Ok (WGS84.point lon lat h k).
Proof.
  pose proof linear_eccentricity_arg as Hel.
  pose proof (radicand_positive (WGS84.radians lat)) as Hrad.
  pose proof (sqrt_lt_R0 _ Hrad) as Hden.
  unfold WGS84.e, WGS84.b, WGS84.a, WGS84.f, WGS84.radians in *.
  unfold geo2car, rbind.
  rewrite (truediv_R_ok (lon * PI) 180) by lra.
  rewrite (truediv_R_ok (lat * PI) 180) by lra.
  rewrite (truediv_R_ok 1 298.257223563) by lra.
  replace (6378137 - 6378137 * (1 / 298.257223563))
    with (6378137 * (1 - 1 / 298.257223563)) by ring.
  rewrite math_sqrt_ok by lra.
  rewrite truediv_R_ok by lra.
  rewrite math_sqrt_ok by lra.
  rewrite truediv_R_ok by lra.
  rewrite truediv_R_ok by lra.
  reflexivity.
Qed.


(** C7. The exaggeration factor only multiplies the height: [geo2car] at
    height [h] and factor [k] is [geo2car] at height [k * h] and factor 1,
    and it is the point of height 0 moved by [k * h] along a direction that
    depends on the longitude and the latitude only. *)
Theorem geo2car_exaggeration (lon lat h k : R) :
  geo2car lon lat h k = geo2car lon lat (k * h) 1
  /\ (let '(x0, y0, z0) := WGS84.point lon lat 0 1 in
      let '(ux, uy, uz) := WGS84.normal lon lat in
      geo2car lon lat h k
      = Ok (x0 + k * (h * ux), y0 + k * (h * uy), z0 + k * (h * uz))).
Proof.
  split.
  - unfold geo2car. replace (k * h * 1) with (h * k) by ring. reflexivity.
  - rewrite geo2car_point. unfold WGS84.point, WGS84.normal.
    f_equal. f_equal; [f_equal|]; ring.
Qed.


End ProjectionFacts.

(** ** Vertex records *)

Section VertexFacts.

Import Projector.






Local Open Scope R_scope.





End VertexFacts.

(** ** The export pass *)

Section ExportFacts.

Import Projector Exporter Expected.













End ExportFacts.

(** ** Strided selection *)

Section StrideFacts.

Context {A : Type}.

(** A selection is determined by its head-and-skip equation. *)
Lemma stride_unique (k : nat) (F G : list A -> list A) :
  F [] = [] -> G [] = [] ->
  (forall x l, F (x :: l) = x :: F (skipn (k - 1) l)) ->
  (forall x l, G (x :: l) = x :: G (skipn (k - 1) l)) ->
  forall l, F l = G l.
Proof.
  intros HF0 HG0 HF HG l.
  remember (List.length l) as n eqn:Hn.
  revert l Hn. induction n as [n IH] using lt_wf_ind. intros l Hn.
  destruct l as [|x l]; [congruence|].
  rewrite HF, HG. f_equal.
  apply (IH (List.length (skipn (k - 1) l))); [|reflexivity].
  rewrite length_skipn. subst n. cbn. lia.
Qed.

(** *** [islice] *)

Lemma islice_yield_waiting (step : nat) :
  forall (j : nat) (l : list A) (i next : nat),
    (i + j <= next)%nat ->
    Py.islice_yield l i next step
    = Py.islice_yield (skipn j l) (i + j) next step.
Proof.
  induction j as [|j IH]; intros l i next Hle.
  - rewrite Nat.add_0_r. reflexivity.
  - destruct l as [|x l]; [reflexivity|].
    cbn [Py.islice_yield skipn].
    destruct (Nat.eqb_spec i next); [lia|].
    rewrite (IH l (S i) next) by lia.
    f_equal. lia.
Qed.

Lemma islice_yield_shift (step : nat) :
  forall (l : list A) (i next d : nat),
    Py.islice_yield l (i + d) (next + d) step = Py.islice_yield l i next step.
Proof.
  induction l as [|x l IH]; intros i next d; [reflexivity|].
  cbn [Py.islice_yield].
  destruct (Nat.eqb_spec (i + d) (next + d)), (Nat.eqb_spec i next);
    try lia.
  - f_equal.
    replace (S (i + d)) with (S i + d)%nat by lia.
    replace (next + d + step)%nat with (next + step + d)%nat by lia.
    apply IH.
  - replace (S (i + d)) with (S i + d)%nat by lia. apply IH.
Qed.

Lemma islice_yield_cons (step : nat) (x : A) (l : list A) :
  (1 <= step)%nat ->
  Py.islice_yield (x :: l) 0 0 step
  = x :: Py.islice_yield (skipn (step - 1) l) 0 0 step.
Proof.
  intros Hstep. cbn [Py.islice_yield Nat.eqb]. f_equal.
  rewrite (islice_yield_waiting step (step - 1) l 1 (0 + step)) by lia.
  replace (1 + (step - 1))%nat with (0 + step)%nat by lia.
  apply islice_yield_shift.
Qed.

(** *** Slices with a step *)

Lemma slice_step_cons (step : nat) (x : A) (l : list A) :
  (1 <= step)%nat ->
  Py.slice_step (x :: l) step = x :: Py.slice_step (skipn (step - 1) l) step.
Proof.
  intros Hstep. unfold Py.slice_step.
  cbn [List.length]. rewrite <- cons_seq, <- seq_shift.
  cbn [flat_map nth_error Nat.mul app]. f_equal.
  rewrite flat_map_concat_map, map_map, <- flat_map_concat_map.
  rewrite length_skipn.
  destruct (Nat.le_gt_cases step (List.length l)) as [Hle|Hgt].
  - replace (List.length l - (step - 1))%nat
      with (S (List.length l - step)) by lia.
    replace (List.length l / step)%nat
      with (S ((List.length l - step) / step)).
    2:{ replace (List.length l) with ((List.length l - step) + 1 * step)%nat
          at 2 by lia.
        rewrite Nat.div_add by lia. lia. }
    apply flat_map_ext. intros i.
    replace (S i * step)%nat with (S (step - 1 + i * step)) by lia.
    cbn [nth_error]. rewrite nth_error_skipn. reflexivity.
  - replace (List.length l - (step - 1))%nat with 0%nat by lia.
    rewrite Nat.div_small by lia. reflexivity.
Qed.

(** *** The selection of the specification *)

Import Spec.

Lemma selected_from_cons (i k : nat) (x : A) (l : list A) :
  selected_from i k (x :: l)
  = (if Nat.eqb (i mod k) 0 then [x] else []) ++ selected_from (S i) k l.
Proof.
  unfold selected_from. cbn [List.length seq combine filter fst].
  destruct (Nat.eqb (i mod k) 0); reflexivity.
Qed.

Lemma selected_from_waiting (k : nat) :
  forall (j : nat) (l : list A) (i : nat),
    (i mod k = 0)%nat -> (j < k)%nat ->
    selected_from (S i) k l = selected_from (S i + j) k (skipn j l).
Proof.
  induction j as [|j IH]; intros l i Hi Hj.
  - rewrite Nat.add_0_r. reflexivity.
  - rewrite (IH l i Hi) by lia.
    destruct (skipn j l) as [|y rest] eqn:E.
    + assert (Hs : skipn (S j) l = []).
      { apply skipn_all_iff. apply skipn_all_iff in E. lia. }
      rewrite Hs. reflexivity.
    + assert (Hs : skipn (S j) l = rest).
      { replace (S j) with (1 + j)%nat by reflexivity.
        rewrite <- skipn_skipn, E. reflexivity. }
      rewrite Hs, selected_from_cons.
      assert (Hmod : ((S i + j) mod k <> 0)%nat).
      { replace (S i + j)%nat with (S j + i)%nat by lia.
        rewrite <- Nat.Div0.add_mod_idemp_r, Hi, Nat.add_0_r.
        rewrite Nat.mod_small by lia. lia. }
      destruct (Nat.eqb_spec ((S i + j) mod k) 0); [contradiction|].
      cbn [app]. f_equal. lia.
Qed.

Lemma selected_from_shift (k : nat) :
  forall (l : list A) (i : nat),
    selected_from (i + k) k l = selected_from i k l.
Proof.
  induction l as [|x l IH]; intros i; [reflexivity|].
  rewrite !selected_from_cons.
  replace ((i + k) mod k)%nat with (i mod k)%nat.
  2:{ replace (i + k)%nat with (i + 1 * k)%nat by lia.
      rewrite Nat.Div0.mod_add. reflexivity. }
  f_equal. replace (S (i + k)) with (S i + k)%nat by lia. apply IH.
Qed.

Lemma every_nth_cons (k : nat) (x : A) (l : list A) :
  (1 <= k)%nat ->
  Spec.every_nth k (x :: l) = x :: Spec.every_nth k (skipn (k - 1) l).
Proof.
  intros Hk.
  unfold every_nth.
  rewrite selected_from_cons.
  rewrite Nat.Div0.mod_0_l. cbn [Nat.eqb app]. f_equal.
  rewrite (selected_from_waiting k (k - 1) l 0) by (try apply Nat.Div0.mod_0_l; lia).
  replace (1 + (k - 1))%nat with (0 + k)%nat by lia.
  apply selected_from_shift.
Qed.

Lemma islice_yield_every_nth (k : nat) (l : list A) :
  (1 <= k)%nat -> Py.islice_yield l 0 0 k = Spec.every_nth k l.
Proof.
  intros Hk.
  apply (stride_unique k (fun l => Py.islice_yield l 0 0 k) (Spec.every_nth k));
    try reflexivity; intros; [apply islice_yield_cons|apply every_nth_cons];
    exact Hk.
Qed.

Lemma slice_step_every_nth (k : nat) (l : list A) :
  (1 <= k)%nat -> Py.slice_step l k = Spec.every_nth k l.
Proof.
  intros Hk.
  apply (stride_unique k (fun l => Py.slice_step l k) (Spec.every_nth k));
    try reflexivity; intros; [apply slice_step_cons|apply every_nth_cons];
    exact Hk.
Qed.

Lemma length_singletons {B : Type} (g : nat -> list B) (idxs : list nat) :
  (forall i, In i idxs -> List.length (g i) = 1%nat) ->
  List.length (flat_map g idxs) = List.length idxs.
Proof.
  induction idxs as [|i idxs IH]; intros H; [reflexivity|].
  cbn [flat_map]. rewrite length_app, (H i (or_introl eq_refl)), IH.
  - reflexivity.
  - intros j Hj. apply H. right. exact Hj.
Qed.

(** A selection of stride [k] from [m + 1] items has [m / k + 1] items. *)
Lemma length_every_nth (k : nat) (l : list A) :
  (1 <= k)%nat ->
  List.length (every_nth k l)
  = match List.length l with O => O | S m => S (m / k) end.
Proof.
  intros Hk. rewrite <- slice_step_every_nth by exact Hk.
  unfold Py.slice_step.
  destruct (List.length l) as [|m] eqn:Hlen; [reflexivity|].
  rewrite length_singletons; [apply length_seq|].
  intros i Hi. apply in_seq in Hi.
  destruct (nth_error l (i * k)) eqn:E; [reflexivity|].
  apply nth_error_None in E.
  assert (i * k <= m)%nat; [|lia].
  apply Nat.le_trans with (k * (m / k))%nat;
    [|apply Nat.Div0.mul_div_le].
  rewrite Nat.mul_comm. apply Nat.mul_le_mono_l. lia.
Qed.

End StrideFacts.

(** ** Elevation-grid decimation *)

Section ElevationFacts.

Local Open Scope Q_scope.

Import Spec.


Lemma fields_positive (n : nat) :
  (2 <= n)%nat -> 0 < inject_Z (Z.of_nat n - 1).
Proof. intros Hn. rewrite <- (Zlt_Qlt 0). lia. Qed.

Lemma elevation_step_value (n : nat) :
  (2 <= n)%nat ->
  elevation_step n == inject_Z 21600 / inject_Z (Z.of_nat n - 1).
Proof.
  intros Hn. pose proof (fields_positive n Hn) as Hm.
  unfold elevation_step. field.
  intros H. rewrite H in Hm. discriminate Hm.
Qed.

Lemma elevation_step_positive (n : nat) : (2 <= n)%nat -> 0 < elevation_step n.
Proof.
  intros Hn. rewrite (elevation_step_value n Hn).
  apply Qlt_shift_div_l; [apply fields_positive; exact Hn|reflexivity].
Qed.

Lemma elevation_step_nonzero (n : nat) :
  (2 <= n)%nat -> ~ elevation_step n == 0.
Proof.
  intros Hn H. pose proof (elevation_step_positive n Hn) as Hp.
  rewrite H in Hp. discriminate Hp.
Qed.



Lemma mid_value (n : nat) :
  (2 <= n)%nat -> mid (elevation_step n) = ((Z.of_nat n - 1) / 2)%Z.
Proof.
  intros Hn. pose proof (fields_positive n Hn) as Hm.
  unfold mid, elevation_step.
  rewrite Zdiv_Qdiv. apply Qfloor_comp. field.
  intros H. rewrite H in Hm. discriminate Hm.
Qed.

(** The two slices of [parse_line] make the reordered row. *)
Lemma slices_reorder (v : Row) (middle : Z) :
  (0 <= middle <= Z.of_nat (List.length v) - 1)%Z ->
  (Py.slice v (Some middle) (Some (-1)%Z) ++ Py.slice v None (Some middle))%list
  = reorder (Z.to_nat middle) v.
Proof.
  intros Hm. unfold Py.slice, Py.adjust_index, reorder.
  replace (middle <? 0)%Z with false by (symmetry; apply Z.ltb_ge; lia).
  cbn [Z.ltb Z.compare].
  rewrite Z.max_r, Z.min_l by lia.
  rewrite Z.sub_0_r. cbn [Z.to_nat skipn].
  f_equal. f_equal. lia.
Qed.

Lemma selected_from_map {A B : Type} (g : A -> B) (k : nat) :
  forall (l : list A) (i : nat),
    selected_from i k (map g l) = map g (selected_from i k l).
Proof.
  induction l as [|x l IH]; intros i; [reflexivity|].
  cbn [map]. rewrite !selected_from_cons, map_app, IH.
  destruct (Nat.eqb (i mod k) 0); reflexivity.
Qed.

Lemma selected_from_In {A : Type} (k : nat) (x : A) :
  forall (l : list A) (i : nat), In x (selected_from i k l) -> In x l.
Proof.
  induction l as [|y l IH]; intros i Hin; [exact Hin|].
  rewrite selected_from_cons in Hin. apply in_app_or in Hin.
  destruct Hin as [Hin|Hin].
  - destruct (Nat.eqb (i mod k) 0); [|contradiction].
    destruct Hin as [<-|[]]. left. reflexivity.
  - right. apply (IH (S i)). exact Hin.
Qed.

Lemma flat_map_agree {A B : Type} (g h : A -> list B) (l : list A) :
  (forall x, In x l -> g x = h x) -> flat_map g l = flat_map h l.
Proof.
  induction l as [|x l IH]; intros H; [reflexivity|].
  cbn [flat_map]. rewrite (H x (or_introl eq_refl)), IH; [reflexivity|].
  intros y Hy. apply H. right. exact Hy.
Qed.

(** [parse_line] on a row of [n] fields. *)
Lemma parse_line_etopo_row (n : nat) (salto : Z) (v : Row) :
  (2 <= n)%nat -> (1 <= salto)%Z -> List.length v = n ->
  parse_line_etopo (mid (elevation_step n)) salto v
  = every_nth (Z.to_nat salto)
      (map (fun x => x * 1000) (reorder (Z.to_nat (mid (elevation_step n))) v)).
Proof.
  intros Hn Hs Hv. unfold parse_line_etopo.
  rewrite slices_reorder.
  - rewrite slice_step_every_nth by lia.
    unfold every_nth. symmetry. apply selected_from_map.
  - rewrite (mid_value n Hn), Hv.
    pose proof (Z.div_pos (Z.of_nat n - 1) 2).
    pose proof (Z.div_le_upper_bound (Z.of_nat n - 1) 2 (Z.of_nat n - 1)).
    lia.
Qed.


End ElevationFacts.

(** ** Undulation-grid decimation *)

Section UndulationFacts.

Local Open Scope Q_scope.

Import Spec BandSpec.


Lemma every_nth_1 {A : Type} (l : list A) : every_nth 1 l = l.
Proof.
  induction l as [|x l IH]; [reflexivity|].
  rewrite every_nth_cons by lia. cbn [Nat.sub skipn]. f_equal. exact IH.
Qed.








(** At stride 1 a turn of the loop keeps one row less than the band has,
    while [parse_line] of [simplifyETOPO] keeps as many values as a band has
    rows (a row of [n] fields spans [n - 1] native steps). *)
Lemma band_at_stride_one (salto_lat : Z) (rows : list Row) (c : nat) :
  (1 <= salto_lat)%Z ->
  (c + Z.to_nat salto_lat <= List.length rows)%nat ->
  List.length (band_rows 1 salto_lat rows c) = (Z.to_nat salto_lat - 1)%nat.
Proof.
  intros Hh Hc. unfold band_rows. cbn [Z.to_nat Pos.to_nat Pos.iter_op].
  rewrite every_nth_1, length_firstn, length_skipn. lia.
Qed.

Lemma length_reorder (n : nat) (v : Row) :
  (2 <= n)%nat -> List.length v = n ->
  List.length (reorder (Z.to_nat (mid (elevation_step n))) v) = (n - 1)%nat.
Proof.
  intros Hn Hv. unfold reorder.
  rewrite (mid_value n Hn), length_app, !length_firstn, length_skipn, Hv.
  pose proof (Z.div_pos (Z.of_nat n - 1) 2).
  pose proof (Z.div_le_upper_bound (Z.of_nat n - 1) 2 (Z.of_nat n - 1)).
  lia.
Qed.

Lemma row_at_stride_one (n : nat) (v : Row) :
  (2 <= n)%nat -> List.length v = n ->
  List.length (parse_line_etopo (mid (elevation_step n)) 1 v) = (n - 1)%nat.
Proof.
  intros Hn Hv. rewrite parse_line_etopo_row by (try assumption; lia).
  cbn [Z.to_nat Pos.to_nat Pos.iter_op].
  rewrite every_nth_1, length_map. apply length_reorder; assumption.
Qed.

(** At a stride of 2 or more that divides the height of a band, a turn of
    the loop keeps as many rows as [parse_line] keeps values. *)
Lemma band_at_larger_stride (salto q : Z) (rows : list Row) (c : nat) :
  (2 <= salto)%Z -> (1 <= q)%Z ->
  (c + Z.to_nat (salto * q) <= List.length rows)%nat ->
  List.length (band_rows salto (salto * q) rows c) = Z.to_nat q.
Proof.
  intros Hs Hq Hc. unfold band_rows.
  rewrite length_every_nth by lia.
  rewrite length_firstn, length_skipn.
  assert (Hsq : (2 <= salto * q)%Z) by nia.
  rewrite Nat.min_l by lia.
  destruct (Z.to_nat (salto * q - 1)) as [|m] eqn:Em; [lia|].
  assert (Hm : Z.of_nat m = (salto * (q - 1) + (salto - 2))%Z) by lia.
  assert (Hdiv : (Z.of_nat m / salto = q - 1)%Z).
  { rewrite Hm, Z.mul_comm, Z.div_add_l by lia.
    rewrite Z.div_small by lia. lia. }
  assert (Hnat : Z.of_nat (m / Z.to_nat salto) = (q - 1)%Z).
  { rewrite Nat2Z.inj_div, Z2Nat.id by lia. exact Hdiv. }
  lia.
Qed.


(** C1, at the step of the grids themselves.  Decimated to their own step of
    90 degrees, the two global grids give sequences of different lengths:
    [simplifyEGM08] leaves out the last longitude of every band, so from
    index 3 on the two sequences are at different points (the undulation
    of latitude 0, longitude 0 faces the elevation of latitude 90,
    longitude 270). *)
Theorem decimations_differ_at_native_step :
  simplifyEGM08 5400 (open Grids.egm5400)
  = Ok ([[90; 0; 1]; [90; 90; 2]; [90; 180; 3];
         [0; 0; 1]; [0; 90; 2]; [0; 180; 3];
         [-90; 0; 1]; [-90; 90; 2]; [-90; 180; 3]],
        mkFile Grids.egm5400 12)
  /\ simplifyETOPO 5400 (open Grids.etopo5400)
     = Ok ([2000; 3000; 0; 1000; 12000; 13000; 10000; 11000;
            22000; 23000; 20000; 21000],
           mkFile Grids.etopo5400 3).
Proof.
  split; vm_compute; reflexivity.
Qed.

End UndulationFacts.

(** ** The theorems at concrete inputs *)

Section Instances.

Import Spec BandSpec Exporter Expected.

Local Open Scope Q_scope.






End Instances.

(** * Further properties *)

(** ** Faults of the elevation-grid decimation *)

Section ElevationFaults.

Local Open Scope Q_scope.

Import Spec.


(** [int] of a non-negative number is its integer part. *)
Lemma int_in_range (q : Q) (k : Z) :
  (0 <= k)%Z -> inject_Z k <= q -> q < inject_Z (k + 1) -> Py.int q = k.
Proof.
  intros Hk Hle Hlt. unfold Py.int.
  assert (Hnum : (0 <= Qnum q)%Z).
  { unfold Qle in Hle. cbn in Hle. nia. }
  replace (Qnum q <? 0)%Z with false by (symmetry; apply Z.ltb_ge; exact Hnum).
  apply Z.le_antisymm.
  - assert (H : inject_Z (Qfloor q) < inject_Z (k + 1))
      by (apply Qle_lt_trans with q; [apply Qfloor_le|exact Hlt]).
    rewrite <- Zlt_Qlt in H. lia.
  - rewrite <- (Qfloor_Z k). apply Qfloor_resp_le. exact Hle.
Qed.

Lemma int_nonpositive (q : Q) : q <= 0 -> (Py.int q <= 0)%Z.
Proof.
  intros Hq. unfold Py.int. destruct (Qnum q <? 0)%Z.
  - change 0%Z with (Qceiling 0). apply Qceiling_resp_le. exact Hq.
  - change 0%Z with (Qfloor 0). apply Qfloor_resp_le. exact Hq.
Qed.

(** X1. On a file with no line left, the detector of the elevation grid
    returns [None] and leaves the file as it is, and [simplifyETOPO] raises
    [TypeError] (it divides the output step by [None]). *)
Theorem simplifyETOPO_no_line (paso_malla_salida : Z) (f : File) :
  nth_error (lines f) (cursor f) = None ->
  get_paso_malla_etopo f = Ok (None, f)
  /\ simplifyETOPO paso_malla_salida f = Raise TypeError.
Proof.
  intros Hline.
  assert (Hdet : get_paso_malla_etopo f = Ok (None, f)).
  { unfold get_paso_malla_etopo, bind, next_line. rewrite Hline. reflexivity. }
  split; [exact Hdet|].
  unfold simplifyETOPO, bind. rewrite Hdet. reflexivity.
Qed.

(** X2. When the next line of the file has exactly one field, the detector
    of the elevation grid divides by zero, and so does [simplifyETOPO]. *)
Theorem simplifyETOPO_single_field (paso_malla_salida : Z) (f : File) (x : Q) :
  nth_error (lines f) (cursor f) = Some [x] ->
  get_paso_malla_etopo f = Raise ZeroDivisionError
  /\ simplifyETOPO paso_malla_salida f = Raise ZeroDivisionError.
Proof.
  intros Hline.
  assert (Hdet : get_paso_malla_etopo f = Raise ZeroDivisionError).
  { unfold get_paso_malla_etopo, bind, next_line. rewrite Hline. reflexivity. }
  split; [exact Hdet|].
  unfold simplifyETOPO, bind. rewrite Hdet. reflexivity.
Qed.

(** X3. When the next line of the file is blank, the detector returns the
    negative step [60 / (-1 / 360)], that is -21600, and [simplifyETOPO]
    raises [ValueError] for every output step that is not negative: the
    stride it hands to [islice] is not positive. *)
Theorem simplifyETOPO_blank_line (paso_malla_salida : Z) (f : File) :
  nth_error (lines f) (cursor f) = Some [] ->
  (0 <= paso_malla_salida)%Z ->
  get_paso_malla_etopo f
  = Ok (Some (60 / (inject_Z (0 - 1) / 360)), mkFile (lines f) 0)
  /\ 60 / (inject_Z (0 - 1) / 360) == inject_Z (-21600)
  /\ simplifyETOPO paso_malla_salida f = Raise ValueError.
Proof.
  intros Hline Ht.
  assert (Hdet : get_paso_malla_etopo f
                 = Ok (Some (60 / (inject_Z (0 - 1) / 360)),
                       mkFile (lines f) 0)).
  { unfold get_paso_malla_etopo, bind, next_line. rewrite Hline. reflexivity. }
  split; [exact Hdet|]. split; [reflexivity|].
  unfold simplifyETOPO, bind. rewrite Hdet.
  rewrite truediv_ok by (intros H; discriminate H). cbn [lift].
  rewrite truediv_ok by (intros H; discriminate H). cbn [lift].
  unfold islice.
  assert (Hint : (Py.int (inject_Z paso_malla_salida
                          / (60 / (inject_Z (0 - 1) / 360))) <= 0)%Z).
  { apply int_nonpositive. unfold Qle. cbn. lia. }
  replace (Py.int (inject_Z paso_malla_salida
                   / (60 / (inject_Z (0 - 1) / 360))) <? 1)%Z with true
    by (symmetry; apply Z.ltb_lt; lia).
  reflexivity.
Qed.

(** [simplifyETOPO] on a grid of rows of [n] fields, once the stride it
    computes is known. *)
Lemma simplifyETOPO_with_stride
  (paso_malla_salida : Z) (rows : list Row) (n : nat) (salto : Z) :
  (2 <= n)%nat ->
  rows <> [] ->
  Forall (fun v => List.length v = n) rows ->
  Py.int (inject_Z paso_malla_salida / elevation_step n) = salto ->
  simplifyETOPO paso_malla_salida (open rows)
  = if (salto <? 1)%Z then Raise ValueError
    else Ok (decimate_elevation (Z.to_nat salto)
               (Z.to_nat (mid (elevation_step n))) rows,
             mkFile rows (List.length rows)).
Proof.
  intros Hn Hne Hrows Hint.
  destruct rows as [|r0 rows']; [contradiction|].
  assert (Hr0 : List.length r0 = n) by (inversion Hrows; assumption).
  unfold simplifyETOPO, bind.
  rewrite (etopo_step_detected (open (r0 :: rows')) r0 n eq_refl Hr0 Hn).
  fold (elevation_step n).
  rewrite (truediv_ok _ _ (elevation_step_nonzero n Hn)). cbn [lift].
  rewrite Hint.
  rewrite (truediv_ok _ _ (elevation_step_nonzero n Hn)). cbn [lift].
  unfold islice, remaining. cbn [lines cursor skipn open].
  destruct (Z.ltb_spec salto 1) as [Hs|Hs]; [reflexivity|].
  unfold ret. cbn [lines cursor skipn Nat.add].
  change (Py.floor (360 * (60 / elevation_step n) / 2))
    with (mid (elevation_step n)).
  f_equal. f_equal.
  rewrite islice_yield_every_nth by lia.
  unfold decimate_elevation. apply flat_map_agree.
  intros v Hv. apply parse_line_etopo_row; try assumption.
  apply selected_from_In in Hv.
  rewrite Forall_forall in Hrows. apply Hrows. exact Hv.
Qed.


(** X5. A target step below the native step (0 included) makes
    [simplifyETOPO] raise [ValueError]: the stride is 0. *)
Theorem simplifyETOPO_step_too_fine
  (paso_malla_salida : Z) (rows : list Row) (n : nat) :
  (2 <= n)%nat ->
  rows <> [] ->
  Forall (fun v => List.length v = n) rows ->
  (0 <= paso_malla_salida)%Z ->
  inject_Z paso_malla_salida < elevation_step n ->
  simplifyETOPO paso_malla_salida (open rows) = Raise ValueError.
Proof.
  intros Hn Hne Hrows Ht Hlt.
  pose proof (elevation_step_positive n Hn) as Hpos.
  rewrite (simplifyETOPO_with_stride paso_malla_salida rows n 0 Hn Hne Hrows).
  - reflexivity.
  - apply int_in_range; [lia| |].
    + apply Qle_shift_div_l; [exact Hpos|].
      rewrite Qmult_0_l. change 0 with (inject_Z 0).
      rewrite <- Zle_Qle. exact Ht.
    + apply Qlt_shift_div_r; [exact Hpos|].
      change (inject_Z (0 + 1)) with 1. rewrite Qmult_1_l. exact Hlt.
Qed.

End ElevationFaults.

(** ** Faults of the undulation-grid decimation *)

Section UndulationFaults.

Local Open Scope Q_scope.

Import Spec BandSpec.

Lemma remaining_length (f : File) (l : Row) :
  nth_error (lines f) (cursor f) = Some l ->
  exists m, List.length (remaining f) = S m.
Proof.
  intros H. unfold remaining.
  assert (Hlt : (cursor f < List.length (lines f))%nat)
    by (apply nth_error_Some; congruence).
  rewrite length_skipn.
  exists (List.length (lines f) - cursor f - 1)%nat. lia.
Qed.

(** X6. With no line left, or with one line left that is a triple, the
    detector of the undulation grid returns [None] and leaves the cursor at
    the end of what it read, not at the start of the file; [simplifyEGM08]
    then raises [TypeError]. *)
Theorem simplifyEGM08_too_few_lines (paso_malla_salida : Z) (f : File) :
  (nth_error (lines f) (cursor f) = None ->
   get_paso_malla_egm f = Ok (None, f)
   /\ simplifyEGM08 paso_malla_salida f = Raise TypeError)
  /\
  (forall lat lon ond : Q,
      nth_error (lines f) (cursor f) = Some [lat; lon; ond] ->
      nth_error (lines f) (S (cursor f)) = None ->
      get_paso_malla_egm f = Ok (None, mkFile (lines f) (S (cursor f)))
      /\ simplifyEGM08 paso_malla_salida f = Raise TypeError).
Proof.
  split.
  - intros Hline.
    assert (Hdet : get_paso_malla_egm f = Ok (None, f)).
    { unfold get_paso_malla_egm. cbn [egm_scan].
      unfold bind, next_line. rewrite Hline. reflexivity. }
    split; [exact Hdet|].
    unfold simplifyEGM08, bind. rewrite Hdet. reflexivity.
  - intros lat lon ond H1 H2.
    assert (Hdet : get_paso_malla_egm f
                   = Ok (None, mkFile (lines f) (S (cursor f)))).
    { unfold get_paso_malla_egm.
      destruct (remaining_length f _ H1) as [m Hm]. rewrite Hm.
      cbn [egm_scan]. unfold bind at 1, next_line at 1. rewrite H1.
      unfold bind, next_line. cbn [lines cursor]. rewrite H2. reflexivity. }
    split; [exact Hdet|].
    unfold simplifyEGM08, bind. rewrite Hdet. reflexivity.
Qed.

(** A line that does not unpack into three values. *)
Lemma not_a_triple (l : Row) (A : Type) (k : Q -> Q -> Q -> A) (d : A) :
  List.length l <> 3%nat ->
  match l with
  | [lat_; lon_f; ond] => k lat_ lon_f ond
  | _ => d
  end = d.
Proof.
  intros H.
  destruct l as [|a [|b [|c [|e l]]]]; try reflexivity.
  exfalso. apply H. reflexivity.
Qed.

(** X7. A first or a second line that does not hold exactly three values
    makes the detector of the undulation grid, and [simplifyEGM08] with it,
    raise [ValueError]. *)
Theorem simplifyEGM08_malformed_line (paso_malla_salida : Z) (f : File) :
  (forall l : Row,
      nth_error (lines f) (cursor f) = Some l ->
      List.length l <> 3%nat ->
      get_paso_malla_egm f = Raise ValueError
      /\ simplifyEGM08 paso_malla_salida f = Raise ValueError)
  /\
  (forall (lat lon ond : Q) (l : Row),
      nth_error (lines f) (cursor f) = Some [lat; lon; ond] ->
      nth_error (lines f) (S (cursor f)) = Some l ->
      List.length l <> 3%nat ->
      get_paso_malla_egm f = Raise ValueError
      /\ simplifyEGM08 paso_malla_salida f = Raise ValueError).
Proof.
  split.
  - intros l Hline Hl.
    assert (Hdet : get_paso_malla_egm f = Raise ValueError).
    { unfold get_paso_malla_egm. cbn [egm_scan].
      unfold bind, next_line. rewrite Hline.
      rewrite not_a_triple by exact Hl. reflexivity. }
    split; [exact Hdet|].
    unfold simplifyEGM08, bind. rewrite Hdet. reflexivity.
  - intros lat lon ond l H1 H2 Hl.
    assert (Hdet : get_paso_malla_egm f = Raise ValueError).
    { unfold get_paso_malla_egm.
      destruct (remaining_length f _ H1) as [m Hm]. rewrite Hm.
      cbn [egm_scan]. unfold bind at 1, next_line at 1. rewrite H1.
      unfold bind, next_line. cbn [lines cursor]. rewrite H2.
      rewrite not_a_triple by exact Hl. reflexivity. }
    split; [exact Hdet|].
    unfold simplifyEGM08, bind. rewrite Hdet. reflexivity.
Qed.



(** X9. The output step 0 makes [simplifyEGM08] raise [ZeroDivisionError],
    whatever the grid, once a step that is not 0 has been detected. *)
Theorem simplifyEGM08_zero_target
  (f : File) (lat1 lon1 ond1 lat2 lon2 ond2 : Q) :
  nth_error (lines f) (cursor f) = Some [lat1; lon1; ond1] ->
  nth_error (lines f) (S (cursor f)) = Some [lat2; lon2; ond2] ->
  ~ undulation_step lon1 lon2 == 0 ->
  simplifyEGM08 0 f = Raise ZeroDivisionError.
Proof.
  intros H1 H2 Hstep.
  unfold simplifyEGM08, bind.
  rewrite (egm_step_detected f lat1 lon1 ond1 lat2 lon2 ond2 H1 H2).
  fold (undulation_step lon1 lon2).
  unfold egm_params. rewrite !(truediv_ok _ _ Hstep). reflexivity.
Qed.

End UndulationFaults.

(** ** The output of the undulation-grid decimation *)

Section UndulationOutput.

Local Open Scope Q_scope.

Import Spec BandSpec Shape.








End UndulationOutput.

(** ** Where the decimated samples come from *)

Section Positions.

Local Open Scope Q_scope.

Import Spec BandSpec Shape.








End Positions.

(** ** The output of the elevation-grid decimation *)

Section ElevationOutput.

Local Open Scope Q_scope.

Import Spec Shape.








End ElevationOutput.

(** ** The two decimations side by side *)

Section SideBySide.

Local Open Scope Q_scope.

Import Spec BandSpec Shape.










End SideBySide.

(** ** The geometry of the projection *)

Section ProjectionGeometry.

Local Open Scope R_scope.

Import Projector.

(** Two returned points are equal when their coordinates are. *)
Ltac coordinates tac :=
  match goal with
  | |- Ok (?x, ?y, ?z) = Ok (?x', ?y', ?z') =>
      replace x with x' by tac;
      replace y with y' by tac;
      replace z with z' by tac;
      reflexivity
  end.

Lemma radians_0 : WGS84.radians 0 = 0.
Proof. unfold WGS84.radians. field. Qed.


Lemma radians_opp (x : R) : WGS84.radians (- x) = - WGS84.radians x.
Proof. unfold WGS84.radians. field. Qed.


Lemma prime_vertical_0 : WGS84.v 0 = WGS84.a.
Proof.
  unfold WGS84.v. rewrite sin_0.
  replace (1 - WGS84.e ^ 2 * 0 ^ 2) with 1 by ring.
  rewrite sqrt_1. field.
Qed.

Lemma prime_vertical_opp (x : R) : WGS84.v (- x) = WGS84.v x.
Proof.
  unfold WGS84.v. rewrite sin_neg.
  replace ((- sin x) ^ 2) with (sin x ^ 2) by ring. reflexivity.
Qed.


Lemma geo2car_at_equator (lon h k : R) :
  geo2car lon 0 h k
  = Ok ((6378137 + h * k) * cos (lon * PI / 180),
        (6378137 + h * k) * sin (lon * PI / 180),
        0).
Proof.
  rewrite geo2car_point. unfold WGS84.point.
  rewrite radians_0, prime_vertical_0, sin_0, cos_0.
  unfold WGS84.a, WGS84.radians.
  coordinates ltac:(ring).
Qed.

Lemma geo2car_origin (k : R) : geo2car 0 0 0 k = Ok (6378137, 0, 0).
Proof.
  rewrite geo2car_at_equator.
  replace (0 * PI / 180) with 0 by field.
  rewrite cos_0, sin_0. coordinates ltac:(ring).
Qed.




(** X20. [geo2car] is symmetric about the equator: the opposite latitude
    gives the same [x] and [y] and the opposite [z]. *)
Theorem geo2car_mirror (lon lat h k x y z : R) :
  geo2car lon lat h k = Ok (x, y, z) ->
  geo2car lon (- lat) h k = Ok (x, y, - z).
Proof.
  rewrite !geo2car_point. intros H.
  assert (Hp : WGS84.point lon lat h k = (x, y, z)) by congruence.
  unfold WGS84.point in *.
  apply pair_equal_spec in Hp. destruct Hp as [Hxy Hz].
  apply pair_equal_spec in Hxy. destruct Hxy as [Hx Hy].
  rewrite radians_opp, prime_vertical_opp, sin_neg, cos_neg.
  rewrite Hx, Hy, <- Hz.
  coordinates ltac:(ring).
Qed.







End ProjectionGeometry.

(** ** More on the export pass *)

Section ExportMore.

Import Projector Exporter Expected.





End ExportMore.

(** ** Whole runs *)

Section WholeRuns.

Local Open Scope Q_scope.

Import Spec BandSpec Shape Exporter Expected Script.






End WholeRuns.

(** ** Target steps that the undulation grid does not divide *)

Section UndulationStrides.

Local Open Scope Q_scope.

Import Spec BandSpec Shape.




End UndulationStrides.

(** ** The further properties at concrete inputs *)

Section MoreInstances.

Local Open Scope Q_scope.

Import Spec BandSpec Shape Exporter Expected Script Projector.







Lemma simplifyETOPO_no_line_witness :
  get_paso_malla_etopo (open []) = Ok (None, open [])
  /\ simplifyETOPO 60 (open []) = Raise TypeError.
Proof.
  apply (simplifyETOPO_no_line 60 (open [])). reflexivity.
Defined.

Lemma simplifyETOPO_single_field_witness :
  get_paso_malla_etopo (open [[7]]) = Raise ZeroDivisionError
  /\ simplifyETOPO 60 (open [[7]]) = Raise ZeroDivisionError.
Proof.
  apply (simplifyETOPO_single_field 60 (open [[7]]) 7). reflexivity.
Defined.

Lemma simplifyETOPO_blank_line_witness :
  get_paso_malla_etopo (open [[]])
  = Ok (Some (60 / (inject_Z (0 - 1) / 360)), mkFile [[]] 0)
  /\ 60 / (inject_Z (0 - 1) / 360) == inject_Z (-21600)
  /\ simplifyETOPO 60 (open [[]]) = Raise ValueError.
Proof.
  apply (simplifyETOPO_blank_line 60 (open [[]])).
  - reflexivity.
  - lia.
Defined.


Lemma simplifyETOPO_step_too_fine_witness :
  simplifyETOPO 1 (open Grids.etopo5400) = Raise ValueError.
Proof.
  apply (simplifyETOPO_step_too_fine 1 Grids.etopo5400 5).
  - lia.
  - discriminate.
  - repeat constructor.
  - lia.
  - vm_compute. reflexivity.
Defined.

Lemma simplifyEGM08_too_few_lines_witness :
  (get_paso_malla_egm (open []) = Ok (None, open [])
   /\ simplifyEGM08 60 (open []) = Raise TypeError)
  /\ (get_paso_malla_egm (open [[90; 0; 1]])
      = Ok (None, mkFile [[90; 0; 1]] 1)
      /\ simplifyEGM08 60 (open [[90; 0; 1]]) = Raise TypeError).
Proof.
  split.
  - apply (proj1 (simplifyEGM08_too_few_lines 60 (open []))). reflexivity.
  - apply (proj2 (simplifyEGM08_too_few_lines 60 (open [[90; 0; 1]]))
             90 0 1); reflexivity.
Defined.

Lemma simplifyEGM08_malformed_line_witness :
  (get_paso_malla_egm (open [[1; 2]]) = Raise ValueError
   /\ simplifyEGM08 60 (open [[1; 2]]) = Raise ValueError)
  /\ (get_paso_malla_egm (open [[90; 0; 1]; [1]]) = Raise ValueError
      /\ simplifyEGM08 60 (open [[90; 0; 1]; [1]]) = Raise ValueError).
Proof.
  split.
  - apply (proj1 (simplifyEGM08_malformed_line 60 (open [[1; 2]])) [1; 2]).
    + reflexivity.
    + discriminate.
  - apply (proj2 (simplifyEGM08_malformed_line 60 (open [[90; 0; 1]; [1]]))
             90 0 1 [1]).
    + reflexivity.
    + reflexivity.
    + discriminate.
Defined.


Lemma simplifyEGM08_zero_target_witness :
  simplifyEGM08 0 (open Grids.egm5400) = Raise ZeroDivisionError.
Proof.
  apply (simplifyEGM08_zero_target (open Grids.egm5400) 90 0 1 90 90 2).
  - reflexivity.
  - reflexivity.
  - vm_compute. discriminate.
Defined.














Local Open Scope R_scope.

Lemma geo2car_mirror_witness : geo2car 0 (- 0) 0 1 = Ok (6378137, 0, - 0).
Proof.
  apply (geo2car_mirror 0 0 0 1 6378137 0 0).
  apply geo2car_origin.
Defined.



End MoreInstances.
